(** * route53.resource_record_set: resource record sets and their change tracking

    A shallow embedding of [src/route53/resource_record_set.py]: the base
    class [ResourceRecordSet], its ten record-type subclasses, and the
    methods [__init__], [__str__], [hosted_zone], [is_modified], [delete],
    [save] and [is_alias_record_set].

    Python values are dynamically typed, so attributes hold a [value];
    exceptions are an explicit [result]; the connection collaborator is an
    oracle that answers method calls, and every call made is logged. *)

From Stdlib Require Import ZArith List String Bool Lia.
From Stdlib Require Import DecimalString.
Import ListNotations.

Local Open Scope string_scope.
Local Open Scope Z_scope.

(** ** Python values *)

(** Opaque objects (a [Route53Connection], an API response, a [HostedZone])
    are known by their identity only. *)
Definition obj_id := positive.

Inductive value : Type :=
| VNone
| VBool (b : bool)
| VInt (n : Z)
| VStr (s : string)
| VList (l : list string)
| VObj (o : obj_id).

Inductive exn : Type :=
| ValueError
| TypeError
| AttributeError
| CollaboratorError (what : string).

Inductive result (X : Type) : Type :=
| Ok (x : X)
| Raise (e : exn).

Arguments Ok {X} x.
Arguments Raise {X} e.

Definition result_bind {X Y} (r : result X) (k : X -> result Y) : result Y :=
  match r with
  | Ok x => k x
  | Raise e => Raise e
  end.

(** What the interpreter fixes and this module only uses: how [int] reads a
    string, and how [str] renders a list and an opaque object. *)
Class Builtins : Type := {
  int_of_str : string -> option Z;
  str_of_list : list string -> string;
  str_of_obj : obj_id -> string
}.

(** Truth value of an object, as [if x] and [x or y] test it; an object
    that defines neither [__bool__] nor [__len__] is true. *)
Definition truthy (v : value) : bool :=
  match v with
  | VNone => false
  | VBool b => b
  | VInt n => negb (n =? 0)
  | VStr s => negb (String.eqb s "")
  | VList l => match l with [] => false | _ :: _ => true end
  | VObj _ => true
  end.

(** [bool] is a subclass of [int]: [True == 1] and [False == 0]. *)
Definition as_number (v : value) : option Z :=
  match v with
  | VBool b => Some (if b then 1 else 0)
  | VInt n => Some n
  | _ => None
  end.

Definition list_eqb (l1 l2 : list string) : bool :=
  if list_eq_dec string_dec l1 l2 then true else false.

(** [x == y] *)
Definition py_eq (x y : value) : bool :=
  match as_number x, as_number y with
  | Some a, Some b => a =? b
  | Some _, None | None, Some _ => false
  | None, None =>
      match x, y with
      | VNone, VNone => true
      | VStr s, VStr t => String.eqb s t
      | VList l, VList m => list_eqb l m
      | VObj o, VObj p => Pos.eqb o p
      | _, _ => false
      end
  end.

(** [x != y] *)
Definition py_ne (x y : value) : bool := negb (py_eq x y).

(** [x or y] *)
Definition py_or (x y : value) : value := if truthy x then x else y.

Section WithBuiltins.
Context {B : Builtins}.

(** [int(x)] *)
Definition py_int (v : value) : result value :=
  match v with
  | VBool b => Ok (VInt (if b then 1 else 0))
  | VInt n => Ok (VInt n)
  | VStr s =>
      match int_of_str s with
      | Some n => Ok (VInt n)
      | None => Raise ValueError
      end
  | VNone | VList _ | VObj _ => Raise TypeError
  end.

(** [str(x)], as the [%s] conversion applies it. *)
Definition py_str (v : value) : string :=
  match v with
  | VNone => "None"
  | VBool b => if b then "True" else "False"
  | VInt n => NilZero.string_of_int (Z.to_int n)
  | VStr s => s
  | VList l => str_of_list l
  | VObj o => str_of_obj o
  end.

End WithBuiltins.

(** ** Dictionaries with string keys, in insertion order *)

Definition dict := list (string * value).

Fixpoint dict_get (d : dict) (k : string) : option value :=
  match d with
  | [] => None
  | (k', v) :: d' => if String.eqb k' k then Some v else dict_get d' k
  end.

(** [d[k] = v] *)
Fixpoint dict_set (d : dict) (k : string) (v : value) : dict :=
  match d with
  | [] => [(k, v)]
  | (k', v') :: d' =>
      if String.eqb k' k then (k', v) :: d' else (k', v') :: dict_set d' k v
  end.

(** [d.update(e)] *)
Definition dict_update (d e : dict) : dict :=
  fold_left (fun acc kv => dict_set acc (fst kv) (snd kv)) e d.

(** Iterating a dictionary yields its keys. *)
Definition dict_keys (d : dict) : list string := map fst d.

(** ** The record set classes *)

Inductive rrset_class : Type :=
| A | AAAA | CNAME | MX | NS | PTR | SOA | SPF | SRV | TXT.

(** [cls.__name__] *)
Definition class_name (c : rrset_class) : string :=
  match c with
  | A => "AResourceRecordSet"
  | AAAA => "AAAAResourceRecordSet"
  | CNAME => "CNAMEResourceRecordSet"
  | MX => "MXResourceRecordSet"
  | NS => "NSResourceRecordSet"
  | PTR => "PTRResourceRecordSet"
  | SOA => "SOAResourceRecordSet"
  | SPF => "SPFResourceRecordSet"
  | SRV => "SRVResourceRecordSet"
  | TXT => "TXTResourceRecordSet"
  end.

(** [cls.rrset_type] *)
Definition rrset_type (c : rrset_class) : string :=
  match c with
  | A => "A"
  | AAAA => "AAAA"
  | CNAME => "CNAME"
  | MX => "MX"
  | NS => "NS"
  | PTR => "PTR"
  | SOA => "SOA"
  | SPF => "SPF"
  | SRV => "SRV"
  | TXT => "TXT"
  end.

(** An instance: its class and its attributes.  The two alias attributes
    exist on [A] instances only; [None] says the instance has no such
    attribute. *)
Record ResourceRecordSet : Type := {
  class_ : rrset_class;
  connection : value;
  zone_id : value;
  name : value;
  ttl : value;
  records : value;
  _initial_vals : dict;
  alias_hosted_zone_id : option value;
  alias_dns_name : option value
}.

(** Attribute assignment, [self.<attribute> = v]. *)
Definition set_connection (v : value) (self : ResourceRecordSet) :=
  {| class_ := class_ self; connection := v; zone_id := zone_id self;
     name := name self; ttl := ttl self; records := records self;
     _initial_vals := _initial_vals self;
     alias_hosted_zone_id := alias_hosted_zone_id self;
     alias_dns_name := alias_dns_name self |}.

Definition set_zone_id (v : value) (self : ResourceRecordSet) :=
  {| class_ := class_ self; connection := connection self; zone_id := v;
     name := name self; ttl := ttl self; records := records self;
     _initial_vals := _initial_vals self;
     alias_hosted_zone_id := alias_hosted_zone_id self;
     alias_dns_name := alias_dns_name self |}.

Definition set_name (v : value) (self : ResourceRecordSet) :=
  {| class_ := class_ self; connection := connection self;
     zone_id := zone_id self; name := v; ttl := ttl self;
     records := records self; _initial_vals := _initial_vals self;
     alias_hosted_zone_id := alias_hosted_zone_id self;
     alias_dns_name := alias_dns_name self |}.

Definition set_ttl (v : value) (self : ResourceRecordSet) :=
  {| class_ := class_ self; connection := connection self;
     zone_id := zone_id self; name := name self; ttl := v;
     records := records self; _initial_vals := _initial_vals self;
     alias_hosted_zone_id := alias_hosted_zone_id self;
     alias_dns_name := alias_dns_name self |}.

Definition set_records (v : value) (self : ResourceRecordSet) :=
  {| class_ := class_ self; connection := connection self;
     zone_id := zone_id self; name := name self; ttl := ttl self;
     records := v; _initial_vals := _initial_vals self;
     alias_hosted_zone_id := alias_hosted_zone_id self;
     alias_dns_name := alias_dns_name self |}.

Definition set_alias_hosted_zone_id (v : value) (self : ResourceRecordSet) :=
  {| class_ := class_ self; connection := connection self;
     zone_id := zone_id self; name := name self; ttl := ttl self;
     records := records self; _initial_vals := _initial_vals self;
     alias_hosted_zone_id := Some v;
     alias_dns_name := alias_dns_name self |}.

Definition set_alias_dns_name (v : value) (self : ResourceRecordSet) :=
  {| class_ := class_ self; connection := connection self;
     zone_id := zone_id self; name := name self; ttl := ttl self;
     records := records self; _initial_vals := _initial_vals self;
     alias_hosted_zone_id := alias_hosted_zone_id self;
     alias_dns_name := Some v |}.

Definition set_initial_vals (d : dict) (self : ResourceRecordSet) :=
  {| class_ := class_ self; connection := connection self;
     zone_id := zone_id self; name := name self; ttl := ttl self;
     records := records self; _initial_vals := d;
     alias_hosted_zone_id := alias_hosted_zone_id self;
     alias_dns_name := alias_dns_name self |}.

(** The keyword arguments of a constructor call.  The two alias keywords
    are optional; [AResourceRecordSet.__init__] defaults them to [None]
    and the base [__init__] does not take them. *)
Record kwargs : Type := {
  kw_connection : value;
  kw_zone_id : value;
  kw_name : value;
  kw_ttl : value;
  kw_records : value;
  kw_alias_hosted_zone_id : option value;
  kw_alias_dns_name : option value
}.

Section Constructors.
Context {B : Builtins}.

(** [self.ttl = int(ttl) if ttl else None] *)
Definition normalize_ttl (ttl : value) : result value :=
  if truthy ttl then py_int ttl else Ok VNone.

(** [ResourceRecordSet.__init__(self, connection, zone_id, name, ttl, records)],
    run for an instance of class [cls]. *)
Definition ResourceRecordSet_init (cls : rrset_class)
    (connection zone_id name ttl records : value) : result ResourceRecordSet :=
  result_bind (normalize_ttl ttl) (fun self_ttl =>
  Ok {| class_ := cls;
        connection := connection;
        zone_id := zone_id;
        name := name;
        ttl := self_ttl;
        records := records;
        _initial_vals :=
          [ ("connection", connection);
            ("zone_id", zone_id);
            ("name", name);
            ("ttl", ttl);
            ("records", records) ];
        alias_hosted_zone_id := None;
        alias_dns_name := None |}).

(** [AResourceRecordSet.__init__(self, alias_hosted_zone_id=None,
    alias_dns_name=None, *args, **kwargs)]; [rest] is what [*args] and
    [**kwargs] hand on to the base [__init__]. *)
Definition AResourceRecordSet_init (alias_hosted_zone_id alias_dns_name : value)
    (rest : kwargs) : result ResourceRecordSet :=
  result_bind
    (ResourceRecordSet_init A (kw_connection rest) (kw_zone_id rest)
       (kw_name rest) (kw_ttl rest) (kw_records rest))
  (fun self =>
  let self := set_alias_hosted_zone_id alias_hosted_zone_id self in
  let self := set_alias_dns_name alias_dns_name self in
  Ok (set_initial_vals
        (dict_update (_initial_vals self)
           [ ("alias_hosted_zone_id", alias_hosted_zone_id);
             ("alias_dns_name", alias_dns_name) ])
        self)).

Definition default (d : value) (o : option value) : value :=
  match o with
  | Some v => v
  | None => d
  end.

(** A call of one of the ten classes, all arguments given by keyword.
    Only [A] defines an [__init__] of its own; an alias keyword given to
    any other class reaches the base [__init__] and is a [TypeError]. *)
Definition new (cls : rrset_class) (kw : kwargs) : result ResourceRecordSet :=
  match cls with
  | A =>
      AResourceRecordSet_init
        (default VNone (kw_alias_hosted_zone_id kw))
        (default VNone (kw_alias_dns_name kw))
        kw
  | _ =>
      match kw_alias_hosted_zone_id kw, kw_alias_dns_name kw with
      | None, None =>
          ResourceRecordSet_init cls
            (kw_connection kw) (kw_zone_id kw) (kw_name kw) (kw_ttl kw)
            (kw_records kw)
      | _, _ => Raise TypeError
      end
  end.

End Constructors.

(** ** Collaborators *)

(** Modelled from the spec: [route53.change_set.ChangeSet] is imported by
    the module but its source is not at hand.  It is constructed from
    [(connection, hostedZoneId)] and offers [addChange(action, recordSet)],
    which appends one change to the batch. *)
Record ChangeSet : Type := {
  cs_connection : value;
  hosted_zone_id : value;
  changes : list (string * ResourceRecordSet)
}.

Definition ChangeSet_init (connection hosted_zone_id : value) : ChangeSet :=
  {| cs_connection := connection;
     hosted_zone_id := hosted_zone_id;
     changes := [] |}.

Definition add_change (action : string) (record_set : ResourceRecordSet)
    (cset : ChangeSet) : ChangeSet :=
  {| cs_connection := cs_connection cset;
     hosted_zone_id := hosted_zone_id cset;
     changes := changes cset ++ [(action, record_set)] |}.

(** The two methods of the connection that this module calls, with the
    connection object they are called on. *)
Inductive call : Type :=
| get_hosted_zone_by_id (conn : obj_id) (id : value)
| _change_resource_record_sets (conn : obj_id) (cset : ChangeSet).

(** The connection is outside this module: what a call answers, given the
    calls made before it, is a parameter, and the answer is all that this
    module sees of the call. *)
Class Connection : Type := {
  respond : list call -> call -> result value
}.

(** ** Methods as computations

    A method runs on [self] and on the log of calls made to the
    connection; it ends with a value or with an exception, and leaves both
    behind as they then are. *)
Record env : Type := {
  self : ResourceRecordSet;
  calls : list call
}.

Definition M (X : Type) : Type := env -> result X * env.

Definition ret {X} (x : X) : M X := fun e => (Ok x, e).

Definition raise {X} (ex : exn) : M X := fun e => (Raise ex, e).

Definition bind {X Y} (m : M X) (k : X -> M Y) : M Y :=
  fun e =>
    match m e with
    | (Ok x, e') => k x e'
    | (Raise ex, e') => (Raise ex, e')
    end.

Notation "x <- m ;; k" := (bind m (fun x => k))
  (at level 61, m at next level, right associativity).

Definition get_self : M ResourceRecordSet := fun e => (Ok (self e), e).

Definition lift {X} (r : result X) : M X := fun e => (r, e).

(** What [getattr] can find on an instance. *)
Inductive attribute : Type :=
| AVal (v : value)
| ADict (d : dict)
| AMethod (m : string).

(** [a != v], for [v] a plain value: a dictionary or a bound method never
    equals one. *)
Definition attribute_ne (a : attribute) (v : value) : bool :=
  match a with
  | AVal x => py_ne x v
  | ADict _ | AMethod _ => true
  end.

Definition method_names : list string :=
  [ "__init__"; "__str__"; "is_modified"; "delete"; "save";
    "is_alias_record_set" ].

(** [key, val = s] for a string [s]: a string unpacks into its characters,
    and into two targets only when it has exactly two. *)
Definition unpack_pair (s : string) : result (string * string) :=
  match s with
  | String a (String b EmptyString) =>
      Ok (String a EmptyString, String b EmptyString)
  | _ => Raise ValueError
  end.

Section Methods.
Context {B : Builtins} {C : Connection}.

(** The call is made, logged, and answered by the connection. *)
Definition invoke (c : call) : M value :=
  fun e => (respond (calls e) c, {| self := self e; calls := calls e ++ [c] |}).

(** [receiver.method(...)]: only an object has the methods of a
    connection; [None], numbers, strings and lists have neither. *)
Definition call_method (receiver : value) (method : obj_id -> call) : M value :=
  match receiver with
  | VObj o => invoke (method o)
  | _ => raise AttributeError
  end.

(** [__str__]: ['<%s: %s>' % (self.__class__.__name__, self.name)] *)
Definition __str__ (self : ResourceRecordSet) : string :=
  "<" ++ class_name (class_ self) ++ ": " ++ py_str (name self) ++ ">".

(** [hosted_zone] (a property) *)
Definition hosted_zone : M value :=
  self <- get_self ;;
  call_method (connection self)
    (fun o => get_hosted_zone_by_id o (zone_id self)).

(** [getattr(self, key)].  The names that [object] itself provides (all
    of them start with two underscores) are left out. *)
Definition getattr (key : string) : M attribute :=
  self <- get_self ;;
  if String.eqb key "connection" then ret (AVal (connection self))
  else if String.eqb key "zone_id" then ret (AVal (zone_id self))
  else if String.eqb key "name" then ret (AVal (name self))
  else if String.eqb key "ttl" then ret (AVal (ttl self))
  else if String.eqb key "records" then ret (AVal (records self))
  else if String.eqb key "_initial_vals" then ret (ADict (_initial_vals self))
  else if String.eqb key "alias_hosted_zone_id" then
    match alias_hosted_zone_id self with
    | Some v => ret (AVal v)
    | None => raise AttributeError
    end
  else if String.eqb key "alias_dns_name" then
    match alias_dns_name self with
    | Some v => ret (AVal v)
    | None => raise AttributeError
    end
  else if String.eqb key "rrset_type" then
    ret (AVal (VStr (rrset_type (class_ self))))
  else if String.eqb key "hosted_zone" then
    z <- hosted_zone ;; ret (AVal z)
  else if existsb (String.eqb key) method_names then ret (AMethod key)
  else raise AttributeError.

(** The loop of [is_modified] over what iterating [self._initial_vals]
    yields:
    [for key, val in ...: if getattr(self, key) != val: return True]
    and [return False] after it. *)
Fixpoint is_modified_loop (items : list string) : M value :=
  match items with
  | [] => ret (VBool false)
  | item :: rest =>
      kv <- lift (unpack_pair item) ;;
      a <- getattr (fst kv) ;;
      if attribute_ne a (VStr (snd kv)) then ret (VBool true)
      else is_modified_loop rest
  end.

(** [is_modified] *)
Definition is_modified : M value :=
  self <- get_self ;;
  is_modified_loop (dict_keys (_initial_vals self)).

(** [delete] *)
Definition delete : M value :=
  self <- get_self ;;
  let cset := ChangeSet_init (connection self) (zone_id self) in
  let cset := add_change "DELETE" self cset in
  call_method (connection self)
    (fun o => _change_resource_record_sets o cset).

(** [save]: the body is [pass]. *)
Definition save : M value := ret VNone.

(** [ResourceRecordSet.is_alias_record_set]: [return False] *)
Definition ResourceRecordSet_is_alias_record_set
    (self : ResourceRecordSet) : result value :=
  Ok (VBool false).

(** Reading an attribute that the instance may lack. *)
Definition read (a : option value) : result value :=
  match a with
  | Some v => Ok v
  | None => Raise AttributeError
  end.

(** [AResourceRecordSet.is_alias_record_set]:
    [return self.alias_hosted_zone_id or self.alias_dns_name] *)
Definition AResourceRecordSet_is_alias_record_set
    (self : ResourceRecordSet) : result value :=
  result_bind (read (alias_hosted_zone_id self)) (fun x =>
  if truthy x then Ok x else read (alias_dns_name self)).

(** [self.is_alias_record_set()], by the class of [self]. *)
Definition is_alias_record_set (self : ResourceRecordSet) : result value :=
  match class_ self with
  | A => AResourceRecordSet_is_alias_record_set self
  | _ => ResourceRecordSet_is_alias_record_set self
  end.

End Methods.

(** ** Callers *)

(** The attributes a caller assigns to after construction. *)
Inductive field : Type :=
| f_connection | f_zone_id | f_name | f_ttl | f_records
| f_alias_hosted_zone_id | f_alias_dns_name.

(** [self.<f> = v] *)
Definition assign (f : field) (v : value) (self : ResourceRecordSet)
    : ResourceRecordSet :=
  match f with
  | f_connection => set_connection v self
  | f_zone_id => set_zone_id v self
  | f_name => set_name v self
  | f_ttl => set_ttl v self
  | f_records => set_records v self
  | f_alias_hosted_zone_id => set_alias_hosted_zone_id v self
  | f_alias_dns_name => set_alias_dns_name v self
  end.

(** A run of assignments, first to last. *)
Definition assign_all (l : list (field * value)) (self : ResourceRecordSet)
    : ResourceRecordSet :=
  fold_left (fun s fv => assign (fst fv) (snd fv) s) l self.

(** The five keywords every class takes, and no alias keyword. *)
Definition keywords (connection zone_id name ttl records : value) : kwargs :=
  {| kw_connection := connection;
     kw_zone_id := zone_id;
     kw_name := name;
     kw_ttl := ttl;
     kw_records := records;
     kw_alias_hosted_zone_id := None;
     kw_alias_dns_name := None |}.

(** The same with the two alias keywords, for class [A]. *)
Definition alias_keywords (alias_hosted_zone_id alias_dns_name : value)
    (connection zone_id name ttl records : value) : kwargs :=
  {| kw_connection := connection;
     kw_zone_id := zone_id;
     kw_name := name;
     kw_ttl := ttl;
     kw_records := records;
     kw_alias_hosted_zone_id := Some alias_hosted_zone_id;
     kw_alias_dns_name := Some alias_dns_name |}.

(** Whether the class called takes the keywords given: the alias keywords
    go with class [A] only. *)
Definition takes (cls : rrset_class) (kw : kwargs) : bool :=
  match cls, kw_alias_hosted_zone_id kw, kw_alias_dns_name kw with
  | A, _, _ => true
  | _, None, None => true
  | _, _, _ => false
  end.

(** A string with at least one character. *)
Definition nonempty_str (v : value) : bool :=
  match v with
  | VStr s => negb (String.eqb s "")
  | _ => false
  end.

(** The constraints the specification puts on a constructor call:
    a connection that is not null, and non-empty strings for the zone
    identifier and the name. *)
Definition meets_constraints (kw : kwargs) : bool :=
  match kw_connection kw with
  | VNone => false
  | _ => nonempty_str (kw_zone_id kw) && nonempty_str (kw_name kw)
  end.

(** The keys of the snapshot in the order they are entered. *)
Definition base_keys : list string :=
  [ "connection"; "zone_id"; "name"; "ttl"; "records" ].

Definition alias_keys : list string :=
  [ "alias_hosted_zone_id"; "alias_dns_name" ].

Definition snapshot_keys (cls : rrset_class) : list string :=
  match cls with
  | A => List.app base_keys alias_keys
  | _ => base_keys
  end.

(** ** A reference interpreter and connection, for concrete runs *)

(** [int] reads an optional minus sign and decimal digits; lists render
    with quoted items; objects render by a fixed tag. *)
#[export] Instance reference_builtins : Builtins := {|
  int_of_str := fun s => option_map Z.of_int (NilEmpty.int_of_string s);
  str_of_list := fun l =>
    "[" ++ String.concat ", " (map (fun s => "'" ++ s ++ "'") l) ++ "]";
  str_of_obj := fun _ => "<object>"
|}.

(** Every call is answered with a receipt numbered by its place in the
    log. *)
#[export] Instance reference_connection : Connection := {|
  respond := fun log _ => Ok (VObj (Pos.of_succ_nat (List.length log)))
|}.

Definition example_conn : value := VObj 1%positive.

(** [CNAMEResourceRecordSet(connection=conn, zone_id='Z123',
    name='www.example.com', ttl=300, records=['example.com.'])] *)
Definition cname_www_kw : kwargs :=
  keywords example_conn (VStr "Z123") (VStr "www.example.com") (VInt 300)
    (VList ["example.com."]).

Definition cname_www : ResourceRecordSet :=
  {| class_ := CNAME;
     connection := example_conn;
     zone_id := VStr "Z123";
     name := VStr "www.example.com";
     ttl := VInt 300;
     records := VList ["example.com."];
     _initial_vals :=
       [ ("connection", example_conn);
         ("zone_id", VStr "Z123");
         ("name", VStr "www.example.com");
         ("ttl", VInt 300);
         ("records", VList ["example.com."]) ];
     alias_hosted_zone_id := None;
     alias_dns_name := None |}.

(** [AResourceRecordSet(alias_hosted_zone_id='Z2ELB',
    alias_dns_name='lb.example.net.', connection=conn, zone_id='Z123',
    name='app.example.com', ttl=None, records=[])] *)
Definition a_alias_kw : kwargs :=
  alias_keywords (VStr "Z2ELB") (VStr "lb.example.net.")
    example_conn (VStr "Z123") (VStr "app.example.com") VNone (VList []).

(** [AResourceRecordSet(connection=conn, zone_id='Z123',
    name='host.example.com', ttl=60, records=['192.0.2.1'])] *)
Definition a_plain_kw : kwargs :=
  keywords example_conn (VStr "Z123") (VStr "host.example.com") (VInt 60)
    (VList ["192.0.2.1"]).

(** [TXTResourceRecordSet(connection=None, zone_id='', name='', ttl=None,
    records=[])] *)
Definition unchecked_kw : kwargs :=
  keywords VNone (VStr "") (VStr "") VNone (VList []).

(** [MXResourceRecordSet(connection=conn, zone_id='Z123',
    name='example.com', ttl=0, records=['10 mail.example.com.'])] *)
Definition mx_ttl0_kw : kwargs :=
  keywords example_conn (VStr "Z123") (VStr "example.com") (VInt 0)
    (VList ["10 mail.example.com."]).

(** The instances these calls construct. *)
Definition a_alias : ResourceRecordSet :=
  {| class_ := A;
     connection := example_conn;
     zone_id := VStr "Z123";
     name := VStr "app.example.com";
     ttl := VNone;
     records := VList [];
     _initial_vals :=
       [ ("connection", example_conn);
         ("zone_id", VStr "Z123");
         ("name", VStr "app.example.com");
         ("ttl", VNone);
         ("records", VList []);
         ("alias_hosted_zone_id", VStr "Z2ELB");
         ("alias_dns_name", VStr "lb.example.net.") ];
     alias_hosted_zone_id := Some (VStr "Z2ELB");
     alias_dns_name := Some (VStr "lb.example.net.") |}.

Definition a_plain : ResourceRecordSet :=
  {| class_ := A;
     connection := example_conn;
     zone_id := VStr "Z123";
     name := VStr "host.example.com";
     ttl := VInt 60;
     records := VList ["192.0.2.1"];
     _initial_vals :=
       [ ("connection", example_conn);
         ("zone_id", VStr "Z123");
         ("name", VStr "host.example.com");
         ("ttl", VInt 60);
         ("records", VList ["192.0.2.1"]);
         ("alias_hosted_zone_id", VNone);
         ("alias_dns_name", VNone) ];
     alias_hosted_zone_id := Some VNone;
     alias_dns_name := Some VNone |}.

Definition mx_ttl0 : ResourceRecordSet :=
  {| class_ := MX;
     connection := example_conn;
     zone_id := VStr "Z123";
     name := VStr "example.com";
     ttl := VNone;
     records := VList ["10 mail.example.com."];
     _initial_vals :=
       [ ("connection", example_conn);
         ("zone_id", VStr "Z123");
         ("name", VStr "example.com");
         ("ttl", VInt 0);
         ("records", VList ["10 mail.example.com."]) ];
     alias_hosted_zone_id := None;
     alias_dns_name := None |}.

(** The change set [delete] hands to the connection for [cname_www]. *)
Definition cname_www_deletion : ChangeSet :=
  {| cs_connection := example_conn;
     hosted_zone_id := VStr "Z123";
     changes := [ ("DELETE", cname_www) ] |}.

(** Whether a value is an object; nothing else has the methods of a
    connection. *)
Definition is_obj (v : value) : bool :=
  match v with
  | VObj _ => true
  | _ => false
  end.

(** The query [hosted_zone] sends for [cname_www]. *)
Definition cname_www_zone_query : call :=
  get_hosted_zone_by_id 1%positive (VStr "Z123").

(** The instance [TXTResourceRecordSet(connection=None, zone_id='',
    name='', ttl=None, records=[])] constructs. *)
Definition txt_unchecked : ResourceRecordSet :=
  {| class_ := TXT;
     connection := VNone;
     zone_id := VStr "";
     name := VStr "";
     ttl := VNone;
     records := VList [];
     _initial_vals :=
       [ ("connection", VNone);
         ("zone_id", VStr "");
         ("name", VStr "");
         ("ttl", VNone);
         ("records", VList []) ];
     alias_hosted_zone_id := None;
     alias_dns_name := None |}.

(** [SRVResourceRecordSet(connection=conn, zone_id='Z123',
    name='_sip._tcp.example.com', ttl='300',
    records=['1 10 5060 sip.example.com.'])], the [ttl] as text. *)
Definition srv_text_ttl_kw : kwargs :=
  keywords example_conn (VStr "Z123") (VStr "_sip._tcp.example.com")
    (VStr "300") (VList ["1 10 5060 sip.example.com."]).

(** [NSResourceRecordSet(connection=conn, zone_id='Z123',
    name='example.com', ttl=-5, records=['ns1.example.com.'])] *)
Definition ns_negative_ttl_kw : kwargs :=
  keywords example_conn (VStr "Z123") (VStr "example.com") (VInt (-5))
    (VList ["ns1.example.com."]).

(** [SPFResourceRecordSet(connection=conn, zone_id='Z123',
    name='example.com', ttl=['300'], records=['v=spf1 -all'])] *)
Definition spf_list_ttl_kw : kwargs :=
  keywords example_conn (VStr "Z123") (VStr "example.com") (VList ["300"])
    (VList ["v=spf1 -all"]).

(** [PTRResourceRecordSet(connection=conn, zone_id='Z123',
    name='1.2.0.192.in-addr.arpa', ttl='', records=['host.example.com.'])] *)
Definition ptr_empty_ttl_kw : kwargs :=
  keywords example_conn (VStr "Z123") (VStr "1.2.0.192.in-addr.arpa")
    (VStr "") (VList ["host.example.com."]).

(** * Properties *)

(** ** The snapshot *)

Section Snapshot.
Context {B : Builtins}.

Lemma ResourceRecordSet_init_inv cls c z n t r rs :
  ResourceRecordSet_init cls c z n t r = Ok rs ->
  exists t',
    normalize_ttl t = Ok t' /\
    rs = {| class_ := cls; connection := c; zone_id := z; name := n;
            ttl := t'; records := r;
            _initial_vals :=
              [ ("connection", c); ("zone_id", z); ("name", n); ("ttl", t);
                ("records", r) ];
            alias_hosted_zone_id := None; alias_dns_name := None |}.
Proof.
  unfold ResourceRecordSet_init, result_bind.
  destruct (normalize_ttl t) as [t' | e]; intros H; [ | discriminate ].
  exists t'. split; [ reflexivity | ]. now inversion H.
Qed.

(** What a successful constructor call leaves in the instance. *)
Lemma new_inv cls kw rs :
  new cls kw = Ok rs ->
  exists t',
    normalize_ttl (kw_ttl kw) = Ok t' /\
    class_ rs = cls /\
    connection rs = kw_connection kw /\
    zone_id rs = kw_zone_id kw /\
    name rs = kw_name kw /\
    ttl rs = t' /\
    records rs = kw_records kw /\
    takes cls kw = true /\
    _initial_vals rs =
      ([ ("connection", kw_connection kw); ("zone_id", kw_zone_id kw);
         ("name", kw_name kw); ("ttl", kw_ttl kw);
         ("records", kw_records kw) ]
       ++ match cls with
          | A => [ ("alias_hosted_zone_id",
                    default VNone (kw_alias_hosted_zone_id kw));
                   ("alias_dns_name", default VNone (kw_alias_dns_name kw)) ]
          | _ => []
          end)%list /\
    (alias_hosted_zone_id rs, alias_dns_name rs) =
      match cls with
      | A => (Some (default VNone (kw_alias_hosted_zone_id kw)),
              Some (default VNone (kw_alias_dns_name kw)))
      | _ => (None, None)
      end.
Proof.
  intros H.
  destruct cls; unfold new, takes in *;
    try (destruct (kw_alias_hosted_zone_id kw), (kw_alias_dns_name kw);
         try discriminate;
         apply ResourceRecordSet_init_inv in H as (t' & Ht & ->);
         exists t'; simpl; repeat split; assumption).
  unfold AResourceRecordSet_init, result_bind in H.
  destruct (ResourceRecordSet_init A _ _ _ _ _) as [s | e] eqn:E;
    [ | discriminate ].
  apply ResourceRecordSet_init_inv in E as (t' & Ht & ->).
  inversion H; subst rs; clear H.
  exists t'. simpl. repeat split; assumption.
Qed.

(** A call the class takes, with a [ttl] that normalizes, constructs. *)
Lemma new_total cls kw t' :
  takes cls kw = true ->
  normalize_ttl (kw_ttl kw) = Ok t' ->
  exists rs, new cls kw = Ok rs.
Proof.
  intros Ht Hn.
  destruct cls; unfold new, takes in *;
    try (destruct (kw_alias_hosted_zone_id kw), (kw_alias_dns_name kw);
         try discriminate;
         unfold ResourceRecordSet_init; rewrite Hn; simpl; eauto).
  unfold AResourceRecordSet_init, ResourceRecordSet_init.
  rewrite Hn. simpl. eauto.
Qed.

(** The keys of a fresh snapshot. *)
Lemma new_keys cls kw rs :
  new cls kw = Ok rs ->
  dict_keys (_initial_vals rs) = snapshot_keys cls.
Proof.
  intros H. apply new_inv in H as (t' & _ & _ & _ & _ & _ & _ & _ & _ & -> & _).
  destruct cls; reflexivity.
Qed.

End Snapshot.

(** Assigning to an attribute leaves the snapshot alone. *)
Lemma assign_initial_vals f v rs :
  _initial_vals (assign f v rs) = _initial_vals rs.
Proof. destruct f; reflexivity. Qed.

Lemma assign_all_initial_vals l rs :
  _initial_vals (assign_all l rs) = _initial_vals rs.
Proof.
  revert rs. induction l as [ | [f v] l IH ]; intros rs; simpl.
  - reflexivity.
  - unfold assign_all in *. simpl. rewrite IH. apply assign_initial_vals.
Qed.

(** ** [is_modified] *)

Lemma unpack_pair_length s :
  String.length s <> 2%nat -> unpack_pair s = Raise ValueError.
Proof.
  destruct s as [ | a [ | b [ | c s ] ] ]; simpl; intros H;
    try reflexivity.
  now elim H.
Qed.

Section IsModified.
Context {C : Connection}.

(** The loop stops at the first key it is given unless that key is two
    characters long: the key does not unpack into a pair. *)
Lemma is_modified_loop_unpack item rest e :
  String.length item <> 2%nat ->
  is_modified_loop (item :: rest) e = (Raise ValueError, e).
Proof.
  intros H. simpl. unfold bind, lift.
  rewrite (unpack_pair_length _ H). reflexivity.
Qed.

(** Whatever the order the dictionary yields its keys in, a snapshot
    that is not empty and has no two-character key makes [is_modified]
    raise, before any attribute is read and before any call. *)
Lemma is_modified_raises rs log :
  dict_keys (_initial_vals rs) <> [] ->
  Forall (fun k => String.length k <> 2%nat) (dict_keys (_initial_vals rs)) ->
  is_modified {| self := rs; calls := log |}
  = (Raise ValueError, {| self := rs; calls := log |}).
Proof.
  intros Hne Hall. unfold is_modified, bind, get_self. simpl.
  destruct (dict_keys (_initial_vals rs)) as [ | k ks ]; [ now elim Hne | ].
  apply is_modified_loop_unpack. now inversion Hall.
Qed.

Lemma keys_not_pairs (cls : rrset_class) :
  Forall (fun k => String.length k <> 2%nat) (snapshot_keys cls).
Proof.
  destruct cls; repeat constructor; simpl; discriminate.
Qed.

(** After construction and after any run of assignments, [is_modified]
    raises [ValueError]. *)
Lemma is_modified_of_new {B : Builtins} cls kw rs l log :
  new cls kw = Ok rs ->
  is_modified {| self := assign_all l rs; calls := log |}
  = (Raise ValueError, {| self := assign_all l rs; calls := log |}).
Proof.
  intros H. apply new_keys in H.
  apply is_modified_raises; rewrite assign_all_initial_vals, H.
  - destruct cls; discriminate.
  - apply keys_not_pairs.
Qed.

End IsModified.

(** C1: right after construction [is_modified] should return [False].
    It does not return at all: for the record set built by
    [CNAMEResourceRecordSet(connection=conn, zone_id='Z123',
    name='www.example.com', ttl=300, records=['example.com.'])], with no
    attribute touched, the call raises [ValueError] (iterating the
    snapshot yields its keys, and a key is not a pair). *)
Theorem is_modified_fresh_raises_ValueError :
  new CNAME cname_www_kw = Ok cname_www /\
  is_modified {| self := cname_www; calls := [] |}
  = (Raise ValueError, {| self := cname_www; calls := [] |}).
Proof.
  split; [ reflexivity | ].
  apply (is_modified_of_new CNAME cname_www_kw cname_www [] []).
  reflexivity.
Qed.

(** C2: after an attribute captured in the snapshot has been given a new
    value, [is_modified] should return [True].  It raises [ValueError]
    instead, both for a CNAME record set whose [name] was changed and for
    an A record set whose [alias_dns_name] was changed; no name/value pair
    is ever compared. *)
Theorem is_modified_after_assignment_raises_ValueError :
  (new CNAME cname_www_kw = Ok cname_www /\
   name (assign f_name (VStr "ftp.example.com") cname_www) <> name cname_www /\
   is_modified
     {| self := assign f_name (VStr "ftp.example.com") cname_www;
        calls := [] |}
   = (Raise ValueError,
      {| self := assign f_name (VStr "ftp.example.com") cname_www;
         calls := [] |})) /\
  (new A a_alias_kw = Ok a_alias /\
   alias_dns_name (assign f_alias_dns_name (VStr "lb2.example.net.") a_alias)
   <> alias_dns_name a_alias /\
   is_modified
     {| self := assign f_alias_dns_name (VStr "lb2.example.net.") a_alias;
        calls := [] |}
   = (Raise ValueError,
      {| self := assign f_alias_dns_name (VStr "lb2.example.net.") a_alias;
         calls := [] |})).
Proof.
  split; (split; [ reflexivity | split; [ discriminate | ] ]).
  - apply (is_modified_of_new CNAME cname_www_kw cname_www
             [(f_name, VStr "ftp.example.com")] []).
    reflexivity.
  - apply (is_modified_of_new A a_alias_kw a_alias
             [(f_alias_dns_name, VStr "lb2.example.net.")] []).
    reflexivity.
Qed.

(** ** [delete] and [save] *)

Section DeleteSave.
Context {C : Connection}.

(** C3: for a record set whose connection is an object, [delete] builds
    a change set for the record set's own zone, holding the one change
    [('DELETE', self)], hands exactly that change set to the connection's
    [_change_resource_record_sets] in a single call, returns what the call
    answers, and leaves the record set, snapshot included, as it was. *)
Theorem delete_submits_one_DELETE_change rs o log :
  connection rs = VObj o ->
  let cset :=
    {| cs_connection := VObj o;
       hosted_zone_id := zone_id rs;
       changes := [ ("DELETE", rs) ] |} in
  delete {| self := rs; calls := log |}
  = (respond log (_change_resource_record_sets o cset),
     {| self := rs;
        calls := (log ++ [ _change_resource_record_sets o cset ])%list |}).
Proof.
  intros Hc. unfold delete, bind, get_self, call_method. simpl.
  rewrite Hc. reflexivity.
Qed.

(** C8: [save] does nothing: whatever the record set and the calls made
    so far, both are left as they were (no attribute and no snapshot entry
    changes, no call is made), nothing is raised, and [None] comes back. *)
Theorem save_is_a_no_op (e : env) :
  save e = (Ok VNone, e) /\
  self (snd (save e)) = self e /\
  calls (snd (save e)) = calls e.
Proof. repeat split. Qed.

End DeleteSave.

(** ** [is_alias_record_set] *)

Lemma truthy_py_or x y : truthy (py_or x y) = truthy x || truthy y.
Proof.
  unfold py_or. destruct (truthy x) eqn:E; simpl; [ exact E | reflexivity ].
Qed.

Section IsAlias.
Context {B : Builtins}.

(** On an A record set the method hands back one of the two attributes
    themselves, the first if it is true and the second otherwise; the
    result is true exactly when one of them is. *)
Lemma A_is_alias_record_set kw rs :
  new A kw = Ok rs ->
  is_alias_record_set rs
  = Ok (py_or (default VNone (kw_alias_hosted_zone_id kw))
              (default VNone (kw_alias_dns_name kw))).
Proof.
  intros H.
  apply new_inv in H as (t' & _ & Hc & _ & _ & _ & _ & _ & _ & _ & Ha).
  unfold is_alias_record_set, AResourceRecordSet_is_alias_record_set.
  rewrite Hc. inversion Ha as [[H1 H2]]. rewrite H1, H2. simpl.
  unfold py_or. destruct (truthy _); reflexivity.
Qed.

Lemma other_is_alias_record_set rs :
  class_ rs <> A -> is_alias_record_set rs = Ok (VBool false).
Proof.
  intros H. unfold is_alias_record_set.
  destruct (class_ rs); try reflexivity. now elim H.
Qed.

(** C5: a freshly constructed record set of any class but [A] answers
    [False] to [is_alias_record_set], whatever it was constructed with. *)
Theorem is_alias_record_set_False_off_A cls kw rs :
  cls <> A ->
  new cls kw = Ok rs ->
  is_alias_record_set rs = Ok (VBool false).
Proof.
  intros Hcls H. apply other_is_alias_record_set.
  apply new_inv in H as (_ & _ & Hc & _). now rewrite Hc.
Qed.

End IsAlias.

(** C4: on an A record set [is_alias_record_set] should return the
    boolean [True] or [False].  It returns the attribute it tested
    instead: the string ['Z2ELB'] for an alias record set, and [None] for
    an A record set constructed without alias arguments. *)
Theorem is_alias_record_set_returns_attribute :
  (new A a_alias_kw = Ok a_alias /\
   is_alias_record_set a_alias = Ok (VStr "Z2ELB") /\
   is_alias_record_set a_alias <> Ok (VBool true)) /\
  (new A a_plain_kw = Ok a_plain /\
   is_alias_record_set a_plain = Ok VNone /\
   is_alias_record_set a_plain <> Ok (VBool false)).
Proof.
  split; (split; [ reflexivity | ]).
  - rewrite (A_is_alias_record_set a_alias_kw a_alias eq_refl).
    split; [ reflexivity | discriminate ].
  - rewrite (A_is_alias_record_set a_plain_kw a_plain eq_refl).
    split; [ reflexivity | discriminate ].
Qed.

(** ** The constructor *)

Section Constructor.
Context {B : Builtins}.

Lemma normalize_ttl_zero : normalize_ttl (VInt 0) = Ok VNone.
Proof. reflexivity. Qed.

Lemma normalize_ttl_None : normalize_ttl VNone = Ok VNone.
Proof. reflexivity. Qed.

Lemma normalize_ttl_positive n : 0 < n -> normalize_ttl (VInt n) = Ok (VInt n).
Proof.
  intros Hn. unfold normalize_ttl. simpl.
  destruct (Z.eqb_spec n 0); [ lia | reflexivity ].
Qed.

(** The instance a call constructs has the normalized [ttl]. *)
Lemma new_ttl cls kw t' :
  takes cls kw = true ->
  normalize_ttl (kw_ttl kw) = Ok t' ->
  exists rs, new cls kw = Ok rs /\ ttl rs = t'.
Proof.
  intros Ht Hn. destruct (new_total cls kw t' Ht Hn) as [rs Hrs].
  exists rs. split; [ exact Hrs | ].
  apply new_inv in Hrs as (t'' & Hn' & _ & _ & _ & _ & Httl & _).
  congruence.
Qed.

(** C6: a [ttl] argument of [0] or of [None] is stored as [None], and a
    positive integer is stored as it is; in each case the instance is
    constructed. *)
Theorem ttl_normalized_on_construction cls kw :
  takes cls kw = true ->
  (kw_ttl kw = VInt 0 -> exists rs, new cls kw = Ok rs /\ ttl rs = VNone) /\
  (kw_ttl kw = VNone -> exists rs, new cls kw = Ok rs /\ ttl rs = VNone) /\
  (forall n, 0 < n -> kw_ttl kw = VInt n ->
     exists rs, new cls kw = Ok rs /\ ttl rs = VInt n).
Proof.
  intros Ht. repeat split.
  - intros E. apply new_ttl; [ exact Ht | ]. rewrite E. apply normalize_ttl_zero.
  - intros E. apply new_ttl; [ exact Ht | ]. rewrite E. apply normalize_ttl_None.
  - intros n Hn E. apply new_ttl; [ exact Ht | ].
    rewrite E. now apply normalize_ttl_positive.
Qed.

(** C7, as the code has it: the constructor checks nothing about
    [connection], [zone_id] and [name].  Every call whose keywords the
    class takes and whose [ttl] normalizes constructs an instance that
    stores the three arguments exactly as given, a null connection and
    empty strings included. *)
Theorem constructor_stores_arguments_unchecked cls kw t' :
  takes cls kw = true ->
  normalize_ttl (kw_ttl kw) = Ok t' ->
  exists rs,
    new cls kw = Ok rs /\
    connection rs = kw_connection kw /\
    zone_id rs = kw_zone_id kw /\
    name rs = kw_name kw.
Proof.
  intros Ht Hn. destruct (new_total cls kw t' Ht Hn) as [rs Hrs].
  exists rs. split; [ exact Hrs | ].
  apply new_inv in Hrs as (_ & _ & _ & Hc & Hz & Hname & _).
  now repeat split.
Qed.

(** C10: the snapshot keeps the [ttl] argument as it was passed while the
    attribute holds the normalized value.  For an argument of [0] the
    snapshot says [0] and the attribute is [None], and [!=] tells them
    apart; whenever normalization changed the argument, the snapshot entry
    is not the attribute's value, and [!=] tells them apart too unless
    the argument was [True] (stored as [1], which equals it). *)
Theorem snapshot_keeps_raw_ttl cls kw rs :
  new cls kw = Ok rs ->
  dict_get (_initial_vals rs) "ttl" = Some (kw_ttl kw) /\
  normalize_ttl (kw_ttl kw) = Ok (ttl rs) /\
  (kw_ttl kw = VInt 0 ->
     ttl rs = VNone /\ py_ne (ttl rs) (kw_ttl kw) = true) /\
  (ttl rs <> kw_ttl kw ->
     dict_get (_initial_vals rs) "ttl" <> Some (ttl rs)) /\
  (ttl rs <> kw_ttl kw -> kw_ttl kw <> VBool true ->
     py_ne (ttl rs) (kw_ttl kw) = true).
Proof.
  intros H.
  apply new_inv in H as (t' & Hn & _ & _ & _ & _ & Httl & _ & _ & Hs & _).
  subst t'.
  assert (Hget : dict_get (_initial_vals rs) "ttl" = Some (kw_ttl kw)).
  { rewrite Hs. reflexivity. }
  split; [ exact Hget | ]. split; [ exact Hn | ]. split; [ | split ].
  - intros E. rewrite E in Hn. rewrite normalize_ttl_zero in Hn.
    inversion Hn as [Hv]. rewrite E. split; reflexivity.
  - intros Hd. rewrite Hget. congruence.
  - intros Hd Hb. revert Hn Hd Hb. generalize (ttl rs) as t.
    intros t. unfold normalize_ttl.
    destruct (kw_ttl kw) as [ | b | n | s | l | o ]; simpl.
    + intros E; inversion E; subst t. intros Hd; now elim Hd.
    + destruct b; simpl; intros E; inversion E; subst t; intros Hd Hb.
      * now elim Hb.
      * reflexivity.
    + destruct (Z.eqb_spec n 0); simpl; intros E; inversion E; subst;
        intros Hd Hb; [ reflexivity | now elim Hd ].
    + destruct (String.eqb s ""); simpl.
      * intros E; inversion E; reflexivity.
      * destruct (int_of_str s); intros E; inversion E; reflexivity.
    + destruct l; intros E; inversion E; reflexivity.
    + discriminate.
Qed.

(** C9: a record set whose [name] is a string renders as [<], the name
    of its class, a colon and a space, the name, and [>]. *)
Theorem str_renders_class_and_name rs s :
  name rs = VStr s ->
  __str__ rs = "<" ++ class_name (class_ rs) ++ ": " ++ s ++ ">".
Proof.
  intros H. unfold __str__. rewrite H. reflexivity.
Qed.

End Constructor.

(** ** Concrete runs *)

(** C7 does not hold as stated: the call
    [TXTResourceRecordSet(connection=None, zone_id='', name='', ttl=None,
    records=[])] breaks all three constraints and still constructs a
    record set, which holds the null connection and the empty strings. *)
Lemma constructor_accepts_unconstrained_arguments :
  meets_constraints unchecked_kw = false /\
  exists rs,
    new TXT unchecked_kw = Ok rs /\
    connection rs = VNone /\
    zone_id rs = VStr "" /\
    name rs = VStr "".
Proof.
  split; [ reflexivity | ].
  eexists. split; [ reflexivity | ]. repeat split.
Qed.

Lemma constructor_stores_arguments_unchecked_witness :
  takes TXT unchecked_kw = true /\
  normalize_ttl (kw_ttl unchecked_kw) = Ok VNone /\
  exists rs,
    new TXT unchecked_kw = Ok rs /\
    connection rs = kw_connection unchecked_kw /\
    zone_id rs = kw_zone_id unchecked_kw /\
    name rs = kw_name unchecked_kw.
Proof.
  split; [ reflexivity | ]. split; [ reflexivity | ].
  apply (constructor_stores_arguments_unchecked TXT unchecked_kw VNone);
    reflexivity.
Defined.

Lemma delete_submits_one_DELETE_change_witness :
  connection cname_www = VObj 1%positive /\
  delete {| self := cname_www; calls := [] |}
  = (Ok (VObj 1%positive),
     {| self := cname_www;
        calls := [ _change_resource_record_sets 1%positive
                     cname_www_deletion ] |}).
Proof.
  split; [ reflexivity | ].
  exact (delete_submits_one_DELETE_change cname_www 1%positive [] eq_refl).
Defined.

Lemma is_alias_record_set_False_off_A_witness :
  CNAME <> A /\
  new CNAME cname_www_kw = Ok cname_www /\
  is_alias_record_set cname_www = Ok (VBool false).
Proof.
  split; [ discriminate | ]. split; [ reflexivity | ].
  apply (is_alias_record_set_False_off_A CNAME cname_www_kw cname_www);
    [ discriminate | reflexivity ].
Defined.

Lemma ttl_normalized_on_construction_witness :
  (takes MX mx_ttl0_kw = true /\ kw_ttl mx_ttl0_kw = VInt 0 /\
   exists rs, new MX mx_ttl0_kw = Ok rs /\ ttl rs = VNone) /\
  (takes A a_alias_kw = true /\ kw_ttl a_alias_kw = VNone /\
   exists rs, new A a_alias_kw = Ok rs /\ ttl rs = VNone) /\
  (takes CNAME cname_www_kw = true /\ 0 < 300 /\
   kw_ttl cname_www_kw = VInt 300 /\
   exists rs, new CNAME cname_www_kw = Ok rs /\ ttl rs = VInt 300).
Proof.
  split; [ | split ].
  - split; [ reflexivity | ]. split; [ reflexivity | ].
    exact (proj1 (ttl_normalized_on_construction MX mx_ttl0_kw eq_refl)
             eq_refl).
  - split; [ reflexivity | ]. split; [ reflexivity | ].
    exact (proj1 (proj2 (ttl_normalized_on_construction A a_alias_kw
                           eq_refl))
             eq_refl).
  - split; [ reflexivity | ]. split; [ reflexivity | ].
    split; [ reflexivity | ].
    exact (proj2 (proj2 (ttl_normalized_on_construction CNAME cname_www_kw
                           eq_refl))
             300 eq_refl eq_refl).
Defined.

Lemma snapshot_keeps_raw_ttl_witness :
  new MX mx_ttl0_kw = Ok mx_ttl0 /\
  dict_get (_initial_vals mx_ttl0) "ttl" = Some (VInt 0) /\
  normalize_ttl (VInt 0) = Ok (ttl mx_ttl0) /\
  (VInt 0 = VInt 0 ->
     ttl mx_ttl0 = VNone /\ py_ne (ttl mx_ttl0) (VInt 0) = true) /\
  (ttl mx_ttl0 <> VInt 0 ->
     dict_get (_initial_vals mx_ttl0) "ttl" <> Some (ttl mx_ttl0)) /\
  (ttl mx_ttl0 <> VInt 0 -> VInt 0 <> VBool true ->
     py_ne (ttl mx_ttl0) (VInt 0) = true).
Proof.
  split; [ reflexivity | ].
  apply (snapshot_keeps_raw_ttl MX mx_ttl0_kw mx_ttl0).
  reflexivity.
Defined.

Lemma str_renders_class_and_name_witness :
  name cname_www = VStr "www.example.com" /\
  __str__ cname_www = "<CNAMEResourceRecordSet: www.example.com>".
Proof.
  split; [ reflexivity | ].
  apply (str_renders_class_and_name cname_www "www.example.com").
  reflexivity.
Defined.

(** * Further properties *)

(** ** Calls to the connection *)

Section ConnectionCalls.
Context {C : Connection}.

(** [hosted_zone], read on a record set whose connection is an object,
    sends the one query [get_hosted_zone_by_id(self.zone_id)] and hands
    back the connection's answer, a value or an exception, as it is; the
    record set is not touched. *)
Theorem hosted_zone_queries_connection rs o log :
  connection rs = VObj o ->
  hosted_zone {| self := rs; calls := log |}
  = (respond log (get_hosted_zone_by_id o (zone_id rs)),
     {| self := rs;
        calls := (log ++ [ get_hosted_zone_by_id o (zone_id rs) ])%list |}).
Proof.
  intros Hc. unfold hosted_zone, bind, get_self, call_method. simpl.
  rewrite Hc. reflexivity.
Qed.

(** Nothing is cached: reading [hosted_zone] twice sends the query twice.
    If the first query raises, the exception ends the run after that one
    query. *)
Theorem hosted_zone_is_not_cached rs o log :
  connection rs = VObj o ->
  let q := get_hosted_zone_by_id o (zone_id rs) in
  (_ <- hosted_zone ;; hosted_zone) {| self := rs; calls := log |}
  = match respond log q with
    | Ok _ =>
        (respond (log ++ [q])%list q,
         {| self := rs; calls := ((log ++ [q]) ++ [q])%list |})
    | Raise ex =>
        (Raise ex, {| self := rs; calls := (log ++ [q])%list |})
    end.
Proof.
  intros Hc q.
  unfold hosted_zone, bind, get_self, call_method. cbn [self calls].
  rewrite Hc. unfold invoke. cbn [self calls]. fold q.
  destruct (respond log q) as [z | ex]; [ | reflexivity ].
  rewrite Hc. reflexivity.
Qed.

(** When the [connection] attribute is not an object ([None], which the
    constructor lets through, or a number, a string, a list), both
    [hosted_zone] and [delete] raise [AttributeError]; no call is made
    and the record set is not touched. *)
Theorem no_connection_no_call rs log :
  is_obj (connection rs) = false ->
  hosted_zone {| self := rs; calls := log |}
  = (Raise AttributeError, {| self := rs; calls := log |}) /\
  delete {| self := rs; calls := log |}
  = (Raise AttributeError, {| self := rs; calls := log |}).
Proof.
  intros Hc.
  unfold hosted_zone, delete, bind, get_self, call_method, raise. simpl.
  destruct (connection rs); try discriminate; split; reflexivity.
Qed.




End ConnectionCalls.

(** ** The snapshot against the attributes *)

Section SnapshotEntries.
Context {B : Builtins} {C : Connection}.

(** The snapshot of a fresh record set has one entry for each constructor
    argument, in the order the arguments are entered: five, and the two
    alias arguments after them for class [A]; no key occurs twice. *)
Theorem snapshot_has_one_entry_per_argument cls kw rs :
  new cls kw = Ok rs ->
  dict_keys (_initial_vals rs) = snapshot_keys cls /\
  NoDup (dict_keys (_initial_vals rs)) /\
  List.length (_initial_vals rs) = match cls with A => 7%nat | _ => 5%nat end.
Proof.
  intros H. pose proof (new_keys cls kw rs H) as Hk.
  split; [ exact Hk | ]. split.
  - rewrite Hk.
    destruct cls; simpl;
      repeat (constructor; [ simpl; intuition discriminate | ]);
      constructor.
  - rewrite <- (length_map fst). fold (dict_keys (_initial_vals rs)).
    rewrite Hk. destruct cls; reflexivity.
Qed.

(** On a fresh record set every snapshot entry but [ttl] holds exactly
    what [getattr] finds under the same name: the snapshot and the
    attributes can differ in [ttl] only. *)
Theorem snapshot_matches_fresh_attributes cls kw rs log k v :
  new cls kw = Ok rs ->
  dict_get (_initial_vals rs) k = Some v ->
  k <> "ttl" ->
  getattr k {| self := rs; calls := log |}
  = (Ok (AVal v), {| self := rs; calls := log |}).
Proof.
  intros H Hg Hk.
  apply new_inv in H
    as (t' & _ & Hc & Hconn & Hz & Hname & _ & Hr & _ & Hs & Ha).
  destruct rs as [c0 conn z n t r d ahz adn]; simpl in *.
  destruct cls; subst; cbn -[String.eqb] in Hg; inversion Ha; subst;
    repeat match type of Hg with
           | context [String.eqb ?lit k] =>
               destruct (String.eqb_spec lit k) as [<- | ?];
               [ first [ now elim Hk
                       | cbn -[String.eqb] in Hg; inversion Hg; subst;
                         reflexivity ]
               | cbn -[String.eqb] in Hg ]
           end;
    discriminate Hg.
Qed.

(** The alias attributes exist on [A] record sets only: there they hold
    the alias arguments ([None] when left out); on any other class
    reading them is an [AttributeError]. *)
Theorem alias_attributes_only_on_A cls kw rs log :
  new cls kw = Ok rs ->
  getattr "alias_hosted_zone_id" {| self := rs; calls := log |}
  = (match cls with
     | A => Ok (AVal (default VNone (kw_alias_hosted_zone_id kw)))
     | _ => Raise AttributeError
     end, {| self := rs; calls := log |}) /\
  getattr "alias_dns_name" {| self := rs; calls := log |}
  = (match cls with
     | A => Ok (AVal (default VNone (kw_alias_dns_name kw)))
     | _ => Raise AttributeError
     end, {| self := rs; calls := log |}).
Proof.
  intros H.
  apply new_inv in H as (t' & _ & _ & _ & _ & _ & _ & _ & _ & _ & Ha).
  unfold getattr, bind, get_self. cbn [self].
  destruct cls; injection Ha as H1 H2; rewrite H1, H2; split; reflexivity.
Qed.

End SnapshotEntries.

(** ** More on [is_alias_record_set] *)

Lemma assign_class f v rs : class_ (assign f v rs) = class_ rs.
Proof. destruct f; reflexivity. Qed.

Lemma assign_all_class l rs : class_ (assign_all l rs) = class_ rs.
Proof.
  revert rs. induction l as [ | [f v] l IH ]; intros rs.
  - reflexivity.
  - unfold assign_all in *. simpl. rewrite IH. apply assign_class.
Qed.

(** On an [A] record set, in whatever state, the result of
    [is_alias_record_set] is true (as [if] tests it) exactly when one of
    the two alias attributes is. *)
Theorem A_is_alias_record_set_truth rs x y :
  class_ rs = A ->
  alias_hosted_zone_id rs = Some x ->
  alias_dns_name rs = Some y ->
  exists v,
    is_alias_record_set rs = Ok v /\
    truthy v = truthy x || truthy y.
Proof.
  intros Hc Hx Hy. exists (py_or x y). split; [ | apply truthy_py_or ].
  unfold is_alias_record_set, AResourceRecordSet_is_alias_record_set.
  rewrite Hc, Hx, Hy. simpl. unfold py_or.
  destruct (truthy x); reflexivity.
Qed.

(** An [A] record set constructed without the alias keywords has both
    alias attributes [None], has [None] for both in its snapshot, and is
    no alias: [is_alias_record_set] gives [None]. *)
Theorem A_without_alias_keywords {B : Builtins} c z n t r rs :
  new A (keywords c z n t r) = Ok rs ->
  alias_hosted_zone_id rs = Some VNone /\
  alias_dns_name rs = Some VNone /\
  dict_get (_initial_vals rs) "alias_hosted_zone_id" = Some VNone /\
  dict_get (_initial_vals rs) "alias_dns_name" = Some VNone /\
  is_alias_record_set rs = Ok VNone.
Proof.
  intros H. pose proof (A_is_alias_record_set _ _ H) as Hr.
  apply new_inv in H as (t' & _ & _ & _ & _ & _ & _ & _ & _ & Hs & Ha).
  injection Ha as H1 H2. rewrite Hs.
  split; [ exact H1 | ]. split; [ exact H2 | ].
  split; [ reflexivity | ]. split; [ reflexivity | exact Hr ].
Qed.

(** On every class but [A] no assignment makes a record set an alias:
    after any run of assignments, the alias attributes included,
    [is_alias_record_set] still returns [False]. *)
Theorem assignments_make_no_alias_off_A rs l :
  class_ rs <> A ->
  is_alias_record_set (assign_all l rs) = Ok (VBool false).
Proof.
  intros H. apply other_is_alias_record_set. now rewrite assign_all_class.
Qed.

(** ** More on the [ttl] argument *)

Section TtlArguments.
Context {B : Builtins}.

(** A call whose [ttl] does not convert constructs nothing: the
    exception of [int] leaves the constructor. *)
Lemma new_raises cls kw ex :
  takes cls kw = true ->
  normalize_ttl (kw_ttl kw) = Raise ex ->
  new cls kw = Raise ex.
Proof.
  intros Ht Hn.
  destruct cls; unfold new, takes in *;
    try (destruct (kw_alias_hosted_zone_id kw), (kw_alias_dns_name kw);
         try discriminate;
         unfold ResourceRecordSet_init; rewrite Hn; reflexivity).
  unfold AResourceRecordSet_init, ResourceRecordSet_init.
  rewrite Hn. reflexivity.
Qed.

(** Whatever the [ttl] argument was, the [ttl] attribute of a constructed
    record set is [None] or an integer. *)
Theorem constructed_ttl_is_None_or_int cls kw rs :
  new cls kw = Ok rs ->
  ttl rs = VNone \/ exists n, ttl rs = VInt n.
Proof.
  intros H.
  apply new_inv in H as (t' & Hn & _ & _ & _ & _ & Httl & _).
  subst t'. revert Hn. generalize (ttl rs) as t. intros t.
  unfold normalize_ttl.
  destruct (truthy (kw_ttl kw)); [ | intros E; inversion E; now left ].
  destruct (kw_ttl kw) as [ | b | n | s | l | o ]; simpl;
    try discriminate;
    try solve [ intros E; inversion E; right; eexists; reflexivity ].
  destruct (int_of_str s); intros E; inversion E.
  right; eexists; reflexivity.
Qed.

(** Every integer [ttl] other than [0] is stored as it is, a negative one
    too: the constructor sets no lower bound. *)
Theorem nonzero_ttl_is_kept cls kw n :
  takes cls kw = true ->
  kw_ttl kw = VInt n ->
  n <> 0 ->
  exists rs, new cls kw = Ok rs /\ ttl rs = VInt n.
Proof.
  intros Ht E Hn. apply new_ttl; [ exact Ht | ].
  rewrite E. unfold normalize_ttl. simpl.
  destruct (Z.eqb_spec n 0); [ contradiction | reflexivity ].
Qed.

(** Every false [ttl] argument ([None], [0], [False], the empty string,
    the empty list) is stored as [None], while the snapshot keeps the
    argument itself. *)
Theorem false_ttl_becomes_None cls kw :
  takes cls kw = true ->
  truthy (kw_ttl kw) = false ->
  exists rs,
    new cls kw = Ok rs /\
    ttl rs = VNone /\
    dict_get (_initial_vals rs) "ttl" = Some (kw_ttl kw).
Proof.
  intros Ht Hf.
  assert (Hn : normalize_ttl (kw_ttl kw) = Ok VNone).
  { unfold normalize_ttl. rewrite Hf. reflexivity. }
  destruct (new_ttl cls kw VNone Ht Hn) as (rs & Hrs & Httl).
  exists rs. split; [ exact Hrs | ]. split; [ exact Httl | ].
  apply new_inv in Hrs as (_ & _ & _ & _ & _ & _ & _ & _ & _ & Hs & _).
  rewrite Hs. reflexivity.
Qed.

(** A [ttl] given as non-empty text goes through [int]: if [int] reads it
    as [n], the attribute is the integer [n] (also for [n = 0], which is
    then kept and not turned into [None]) and the snapshot keeps the text;
    if [int] cannot read it, the constructor raises [ValueError]. *)
Theorem text_ttl_is_converted cls kw s :
  takes cls kw = true ->
  kw_ttl kw = VStr s ->
  s <> "" ->
  match int_of_str s with
  | Some n =>
      exists rs,
        new cls kw = Ok rs /\
        ttl rs = VInt n /\
        dict_get (_initial_vals rs) "ttl" = Some (VStr s)
  | None => new cls kw = Raise ValueError
  end.
Proof.
  intros Ht E Hs.
  assert (Htr : String.eqb s "" = false) by now apply String.eqb_neq.
  destruct (int_of_str s) as [n | ] eqn:Hi.
  - assert (Hn : normalize_ttl (kw_ttl kw) = Ok (VInt n)).
    { rewrite E. unfold normalize_ttl. simpl. rewrite Htr. simpl.
      rewrite Hi. reflexivity. }
    destruct (new_ttl cls kw (VInt n) Ht Hn) as (rs & Hrs & Httl).
    exists rs. split; [ exact Hrs | ]. split; [ exact Httl | ].
    apply new_inv in Hrs as (_ & _ & _ & _ & _ & _ & _ & _ & _ & Hsn & _).
    rewrite Hsn, <- E. reflexivity.
  - apply new_raises; [ exact Ht | ].
    rewrite E. unfold normalize_ttl. simpl. rewrite Htr. simpl.
    rewrite Hi. reflexivity.
Qed.

(** A [ttl] that is an object or a list with items is true but no number:
    [int] raises [TypeError] and no record set is constructed. *)
Theorem ttl_of_wrong_type_raises_TypeError cls kw :
  takes cls kw = true ->
  is_obj (kw_ttl kw) = true \/ (exists x l, kw_ttl kw = VList (x :: l)) ->
  new cls kw = Raise TypeError.
Proof.
  intros Ht H. apply new_raises; [ exact Ht | ].
  destruct H as [H | (x & l & H)].
  - destruct (kw_ttl kw); try discriminate. reflexivity.
  - rewrite H. reflexivity.
Qed.

End TtlArguments.

(** ** Class names and rendering *)

(** Each class is named after its record type: the class name is the
    value of [rrset_type] followed by [ResourceRecordSet]; and no two of
    the ten classes share a record type. *)
Theorem class_names_follow_record_types :
  (forall c, class_name c = rrset_type c ++ "ResourceRecordSet") /\
  NoDup (map rrset_type [A; AAAA; CNAME; MX; NS; PTR; SOA; SPF; SRV; TXT]).
Proof.
  split.
  - intros c. destruct c; reflexivity.
  - simpl. repeat (constructor; [ simpl; intuition discriminate | ]).
    constructor.
Qed.

Lemma append_last_inj (s1 s2 : string) (c : Ascii.ascii) :
  s1 ++ String c "" = s2 ++ String c "" -> s1 = s2.
Proof.
  revert s2. induction s1 as [ | a s1 IH ]; intros [ | b s2 ]; simpl;
    intros H.
  - reflexivity.
  - injection H as _ H. destruct s2; discriminate H.
  - injection H as _ H. destruct s1; discriminate H.
  - injection H as -> H. f_equal. now apply IH.
Qed.

(** The rendering tells record sets apart: two record sets with string
    names that render alike have the same class and the same name. *)
Theorem str_identifies_class_and_name {B : Builtins} rs1 rs2 s1 s2 :
  name rs1 = VStr s1 ->
  name rs2 = VStr s2 ->
  __str__ rs1 = __str__ rs2 ->
  class_ rs1 = class_ rs2 /\ s1 = s2.
Proof.
  intros H1 H2. unfold __str__. rewrite H1, H2.
  destruct (class_ rs1), (class_ rs2); simpl; intros H;
    try discriminate H;
    (split; [ reflexivity | ]);
    inversion H as [H']; now apply append_last_inj in H'.
Qed.

(** ** Concrete runs of the further properties *)

Lemma hosted_zone_queries_connection_witness :
  connection cname_www = VObj 1%positive /\
  hosted_zone {| self := cname_www; calls := [] |}
  = (Ok (VObj 1%positive),
     {| self := cname_www; calls := [ cname_www_zone_query ] |}).
Proof.
  split; [ reflexivity | ].
  exact (hosted_zone_queries_connection cname_www 1%positive [] eq_refl).
Defined.

Lemma hosted_zone_is_not_cached_witness :
  connection cname_www = VObj 1%positive /\
  (_ <- hosted_zone ;; hosted_zone) {| self := cname_www; calls := [] |}
  = (Ok (VObj 2%positive),
     {| self := cname_www;
        calls := [ cname_www_zone_query; cname_www_zone_query ] |}).
Proof.
  split; [ reflexivity | ].
  exact (hosted_zone_is_not_cached cname_www 1%positive [] eq_refl).
Defined.

Lemma no_connection_no_call_witness :
  new TXT unchecked_kw = Ok txt_unchecked /\
  is_obj (connection txt_unchecked) = false /\
  hosted_zone {| self := txt_unchecked; calls := [] |}
  = (Raise AttributeError, {| self := txt_unchecked; calls := [] |}) /\
  delete {| self := txt_unchecked; calls := [] |}
  = (Raise AttributeError, {| self := txt_unchecked; calls := [] |}).
Proof.
  split; [ reflexivity | ]. split; [ reflexivity | ].
  apply (no_connection_no_call txt_unchecked []). reflexivity.
Defined.

Lemma snapshot_has_one_entry_per_argument_witness :
  new A a_alias_kw = Ok a_alias /\
  dict_keys (_initial_vals a_alias) = snapshot_keys A /\
  NoDup (dict_keys (_initial_vals a_alias)) /\
  List.length (_initial_vals a_alias) = 7%nat.
Proof.
  split; [ reflexivity | ].
  apply (snapshot_has_one_entry_per_argument A a_alias_kw a_alias).
  reflexivity.
Defined.

Lemma snapshot_matches_fresh_attributes_witness :
  new A a_alias_kw = Ok a_alias /\
  dict_get (_initial_vals a_alias) "alias_dns_name"
  = Some (VStr "lb.example.net.") /\
  "alias_dns_name" <> "ttl" /\
  getattr "alias_dns_name" {| self := a_alias; calls := [] |}
  = (Ok (AVal (VStr "lb.example.net.")),
     {| self := a_alias; calls := [] |}).
Proof.
  split; [ reflexivity | ]. split; [ reflexivity | ].
  split; [ discriminate | ].
  apply (snapshot_matches_fresh_attributes A a_alias_kw a_alias []
           "alias_dns_name" (VStr "lb.example.net."));
    [ reflexivity | reflexivity | discriminate ].
Defined.

Lemma alias_attributes_only_on_A_witness :
  new CNAME cname_www_kw = Ok cname_www /\
  getattr "alias_hosted_zone_id" {| self := cname_www; calls := [] |}
  = (Raise AttributeError, {| self := cname_www; calls := [] |}) /\
  getattr "alias_dns_name" {| self := cname_www; calls := [] |}
  = (Raise AttributeError, {| self := cname_www; calls := [] |}).
Proof.
  split; [ reflexivity | ].
  exact (alias_attributes_only_on_A CNAME cname_www_kw cname_www []
           eq_refl).
Defined.

Lemma A_is_alias_record_set_truth_witness :
  class_ (assign f_alias_dns_name (VStr "lb.example.net.") a_plain) = A /\
  alias_hosted_zone_id
    (assign f_alias_dns_name (VStr "lb.example.net.") a_plain)
  = Some VNone /\
  alias_dns_name (assign f_alias_dns_name (VStr "lb.example.net.") a_plain)
  = Some (VStr "lb.example.net.") /\
  exists v,
    is_alias_record_set
      (assign f_alias_dns_name (VStr "lb.example.net.") a_plain)
    = Ok v /\
    truthy v = truthy VNone || truthy (VStr "lb.example.net.").
Proof.
  split; [ reflexivity | ]. split; [ reflexivity | ].
  split; [ reflexivity | ].
  apply (A_is_alias_record_set_truth
           (assign f_alias_dns_name (VStr "lb.example.net.") a_plain)
           VNone (VStr "lb.example.net.")); reflexivity.
Defined.

Lemma A_without_alias_keywords_witness :
  new A a_plain_kw = Ok a_plain /\
  alias_hosted_zone_id a_plain = Some VNone /\
  alias_dns_name a_plain = Some VNone /\
  dict_get (_initial_vals a_plain) "alias_hosted_zone_id" = Some VNone /\
  dict_get (_initial_vals a_plain) "alias_dns_name" = Some VNone /\
  is_alias_record_set a_plain = Ok VNone.
Proof.
  split; [ reflexivity | ].
  apply (A_without_alias_keywords example_conn (VStr "Z123")
           (VStr "host.example.com") (VInt 60) (VList ["192.0.2.1"]) a_plain).
  reflexivity.
Defined.

Lemma assignments_make_no_alias_off_A_witness :
  class_ cname_www <> A /\
  is_alias_record_set
    (assign_all [ (f_alias_hosted_zone_id, VStr "Z2ELB");
                  (f_alias_dns_name, VStr "lb.example.net.") ] cname_www)
  = Ok (VBool false).
Proof.
  split; [ discriminate | ].
  apply (assignments_make_no_alias_off_A cname_www). discriminate.
Defined.

Lemma constructed_ttl_is_None_or_int_witness :
  new MX mx_ttl0_kw = Ok mx_ttl0 /\
  (ttl mx_ttl0 = VNone \/ exists n, ttl mx_ttl0 = VInt n).
Proof.
  split; [ reflexivity | ].
  apply (constructed_ttl_is_None_or_int MX mx_ttl0_kw mx_ttl0).
  reflexivity.
Defined.

Lemma nonzero_ttl_is_kept_witness :
  takes NS ns_negative_ttl_kw = true /\
  kw_ttl ns_negative_ttl_kw = VInt (-5) /\
  -5 <> 0 /\
  exists rs, new NS ns_negative_ttl_kw = Ok rs /\ ttl rs = VInt (-5).
Proof.
  split; [ reflexivity | ]. split; [ reflexivity | ]. split; [ lia | ].
  apply (nonzero_ttl_is_kept NS ns_negative_ttl_kw (-5));
    [ reflexivity | reflexivity | lia ].
Defined.

Lemma false_ttl_becomes_None_witness :
  takes PTR ptr_empty_ttl_kw = true /\
  truthy (kw_ttl ptr_empty_ttl_kw) = false /\
  exists rs,
    new PTR ptr_empty_ttl_kw = Ok rs /\
    ttl rs = VNone /\
    dict_get (_initial_vals rs) "ttl" = Some (VStr "").
Proof.
  split; [ reflexivity | ]. split; [ reflexivity | ].
  apply (false_ttl_becomes_None PTR ptr_empty_ttl_kw); reflexivity.
Defined.

Lemma text_ttl_is_converted_witness :
  takes SRV srv_text_ttl_kw = true /\
  kw_ttl srv_text_ttl_kw = VStr "300" /\
  "300" <> "" /\
  exists rs,
    new SRV srv_text_ttl_kw = Ok rs /\
    ttl rs = VInt 300 /\
    dict_get (_initial_vals rs) "ttl" = Some (VStr "300").
Proof.
  split; [ reflexivity | ]. split; [ reflexivity | ].
  split; [ discriminate | ].
  assert (Hs : "300" <> "") by discriminate.
  exact (text_ttl_is_converted SRV srv_text_ttl_kw "300" eq_refl eq_refl Hs).
Defined.

Lemma ttl_of_wrong_type_raises_TypeError_witness :
  takes SPF spf_list_ttl_kw = true /\
  (exists x l, kw_ttl spf_list_ttl_kw = VList (x :: l)) /\
  new SPF spf_list_ttl_kw = Raise TypeError.
Proof.
  split; [ reflexivity | ].
  split; [ exists "300", []; reflexivity | ].
  apply (ttl_of_wrong_type_raises_TypeError SPF spf_list_ttl_kw);
    [ reflexivity | right; exists "300", []; reflexivity ].
Defined.

Lemma str_identifies_class_and_name_witness :
  name cname_www = VStr "www.example.com" /\
  name (assign f_ttl (VInt 60) cname_www) = VStr "www.example.com" /\
  __str__ cname_www = __str__ (assign f_ttl (VInt 60) cname_www) /\
  class_ cname_www = class_ (assign f_ttl (VInt 60) cname_www) /\
  "www.example.com" = "www.example.com".
Proof.
  split; [ reflexivity | ]. split; [ reflexivity | ].
  split; [ reflexivity | ].
  apply (str_identifies_class_and_name cname_www
           (assign f_ttl (VInt 60) cname_www)); reflexivity.
Defined.
